(** * ExpectQueriedColumnsToMatchLogicalExpression

    A shallow embedding of
    [contrib/experimental/great_expectations_experimental/expectations/
     expect_queried_columns_to_match_logical_expression.py]
    and the properties of its configuration check, its result
    interpretation, its query template and its description renderer. *)

From Stdlib Require Import ZArith List String Ascii Bool Lia.
From Stdlib Require Import DecimalString DecimalZ.
Import ListNotations.
Local Open Scope string_scope.
Local Open Scope Z_scope.

(** ** Python values

    The values that flow through the class are the ones a configuration or a
    metrics mapping can hold.  A [dict] keeps insertion order (the code takes
    the first of [.values()]), so it is an association list; its keys are the
    strings the class uses.  Floats are left out; text is a [string]. *)

Module Py.

#[warnings="-register-all"]
Inductive pyval : Type :=
| VNone
| VBool (b : bool)
| VInt (z : Z)
| VStr (s : string)
| VList (l : list pyval)
| VDict (d : list (string * pyval)).

Definition pydict : Type := list (string * pyval).

(** The exceptions the module can meet.  [OtherError] stands for whatever
    else code outside this module may raise. *)
Inductive exn : Type :=
| TypeError
| KeyError (key : pyval)
| IndexError
| AttributeError
| ValueError
| AssertionError (msg : string)
| InvalidExpectationConfigurationError (msg : string)
| OtherError (name : string).

(** A call either returns or raises. *)
Inductive res (A : Type) : Type :=
| Ok (a : A)
| Raise (e : exn).

Arguments Ok {A} a.
Arguments Raise {A} e.

Definition bind {A B : Type} (m : res A) (k : A -> res B) : res B :=
  match m with
  | Ok a => k a
  | Raise e => Raise e
  end.

(** [try: body  except AssertionError as e: handler(str(e))]. *)
Definition try_except_AssertionError {A : Type}
    (body : res A) (handler : string -> res A) : res A :=
  match body with
  | Raise (AssertionError msg) => handler msg
  | other => other
  end.

(** [assert cond, msg]. *)
Definition assert_ (cond : bool) (msg : string) : res unit :=
  if cond then Ok tt else Raise (AssertionError msg).

(** [d[k]] on the association list; [None] when the key is absent. *)
Fixpoint dict_lookup (d : pydict) (k : string) : option pyval :=
  match d with
  | [] => None
  | (k', v) :: rest => if String.eqb k' k then Some v else dict_lookup rest k
  end.

(** [d.get(k)]: the value, or Python's [None]. *)
Definition dict_get (d : pydict) (k : string) : pyval :=
  match dict_lookup d k with
  | Some v => v
  | None => VNone
  end.

(** [x[k]] for a string key [k]. *)
Definition getitem_str (x : pyval) (k : string) : res pyval :=
  match x with
  | VDict d =>
      match dict_lookup d k with
      | Some v => Ok v
      | None => Raise (KeyError (VStr k))
      end
  | _ => Raise TypeError
  end.

(** [x[0]]. *)
Definition getitem_0 (x : pyval) : res pyval :=
  match x with
  | VList (v :: _) => Ok v
  | VList [] => Raise IndexError
  | VStr (String c _) => Ok (VStr (String c EmptyString))
  | VStr EmptyString => Raise IndexError
  | VDict _ => Raise (KeyError (VInt 0))
  | VNone | VBool _ | VInt _ => Raise TypeError
  end.

(** [x.values()]: only a dict has the method. *)
Definition values (x : pyval) : res (list pyval) :=
  match x with
  | VDict d => Ok (map snd d)
  | _ => Raise AttributeError
  end.

(** [list(vs)[0]]. *)
Definition list_getitem_0 (vs : list pyval) : res pyval :=
  match vs with
  | v :: _ => Ok v
  | [] => Raise IndexError
  end.

(** [x == 0]: integers compare by value and [False] is the integer 0. *)
Definition eq_zero (x : pyval) : bool :=
  match x with
  | VInt z => Z.eqb z 0
  | VBool b => negb b
  | _ => false
  end.

(** [x is not None]. *)
Definition is_not_none (x : pyval) : bool :=
  match x with
  | VNone => false
  | _ => true
  end.

(** [isinstance(x, str) and len(x) > 0]. *)
Definition is_nonempty_str (x : pyval) : bool :=
  match x with
  | VStr s => (0 <? String.length s)%nat
  | _ => false
  end.

(** [str(n)] of an integer: its decimal digits, with a minus sign below 0. *)
Definition str_int (n : Z) : string := NilEmpty.string_of_int (Z.to_int n).

(** [int(s)] on decimal text. *)
Definition int_of_str (s : string) : option Z :=
  option_map Z.of_int (NilEmpty.int_of_string s).

(** [needle in hay] on text. *)
Fixpoint contains (needle hay : string) : bool :=
  String.prefix needle hay ||
  match hay with
  | EmptyString => false
  | String _ rest => contains needle rest
  end.

(** [a or b] where a present object is truthy and [None] is falsy. *)
Definition or_else {A : Type} (a b : option A) : option A :=
  match a with
  | Some x => Some x
  | None => b
  end.

End Py.
Export Py.

Declare Scope py_scope.
Notation "x <- m ;; k" := (bind m (fun x => k))
  (at level 61, m at next level, right associativity) : py_scope.
Notation "m ;;; k" := (bind m (fun _ => k))
  (at level 61, right associativity) : py_scope.
Local Open Scope py_scope.

(** [t] occurs inside [s] as a contiguous piece of text. *)
Definition Substring (t s : string) : Prop :=
  exists pre post : string, s = pre ++ t ++ post.

(** ** The class

    What the class relies on and lives outside the module is taken as given:
    the base class's [validate_configuration] (called first through
    [super()]), the rendering helper [substitute_none_for_missing], the two
    decorators of the renderer, and the text Python prints for a list or a
    dict, which [str] needs to be total. *)

(** An [ExpectationConfiguration]: [configuration['kwargs']] and
    [configuration.kwargs] both read the [kwargs] attribute.  The object is
    truthy. *)
Record ExpectationConfiguration : Type := {
  expectation_type : string;
  kwargs : pydict;
  meta : pyval
}.

(** The instance: [self.configuration]. *)
Record Expectation : Type := {
  self_configuration : option ExpectationConfiguration
}.

(** The inner dict of the value [_validate] returns. *)
Record ResultDetail : Type := {
  info : string;
  observed_value : string
}.

(** [{'success': ..., 'result': {'info': ..., 'observed_value': ...}}]. *)
Record ValidationResult : Type := {
  success : bool;
  result : ResultDetail
}.

(** The [string_template] entry of a rendered content block. *)
Record StringTemplate : Type := {
  template : string;
  params : pydict;
  styling : pyval
}.

Record RenderedStringTemplateContent : Type := {
  content_block_type : string;
  string_template : StringTemplate
}.

Definition nl : string := String (ascii_of_nat 10) EmptyString.

(** The class attribute [query], line by line as the triple-quoted literal
    has it. *)
Definition query : string :=
  " SELECT COUNT(*)" ++ nl ++
  "                    FROM (SELECT {column_list}" ++ nl ++
  "                    FROM {active_batch} a" ++ nl ++
  "                    WHERE not ({expression})) b" ++ nl ++
  "                ".

Definition metric_dependencies : list string := ["query.template_values"].

Definition success_keys : list string := ["query"; "expression"; "template_dict"].

Definition domain_keys : list string :=
  ["batch_id"; "row_condition"; "condition_parser"].

Definition default_kwarg_values : pydict :=
  [ ("result_format", VStr "BASIC");
    ("include_config", VBool true);
    ("catch_exceptions", VBool false);
    ("meta", VNone);
    ("template_dict", VNone);
    ("expression", VNone);
    ("query", VStr query) ].

(** A renderer: called with [configuration], [result], [language] and
    [runtime_configuration], each by keyword and each possibly [None]; it
    returns a list of content blocks. *)
Definition renderer_fn : Type :=
  option ExpectationConfiguration -> option ValidationResult ->
  option string -> option pydict ->
  res (list RenderedStringTemplateContent).

(** The evaluation parameters of a configuration, as the decorator
    [render_evaluation_parameter_string] collects them: for every kwargs value
    that is a dict with a ['$PARAMETER'] key, what that key holds. *)
Fixpoint evaluation_parameters (kwargs : pydict) : list pyval :=
  match kwargs with
  | [] => []
  | (_, VDict d) :: rest =>
      match dict_lookup d "$PARAMETER" with
      | Some param => param :: evaluation_parameters rest
      | None => evaluation_parameters rest
      end
  | _ :: rest => evaluation_parameters rest
  end.

Section ExpectQueriedColumnsToMatchLogicalExpression.

(** [QueryExpectation.validate_configuration], reached through [super()]. *)
Variable super_validate_configuration :
  Expectation -> option ExpectationConfiguration -> res unit.

(** [great_expectations.render.util.substitute_none_for_missing]. *)
Variable substitute_none_for_missing : pydict -> list string -> pydict.

(** [str] of a list or of a dict. *)
Variable container_str : pyval -> string.

(** The type of execution engines; [_validate] receives one and ignores it. *)
Variable ExecutionEngine : Type.

(** The decorator [renderer] of [great_expectations.render.renderer.renderer],
    applied to a renderer type. *)
Variable renderer : string -> renderer_fn -> renderer_fn.

(** The decorator [render_evaluation_parameter_string] of
    [great_expectations.expectations.expectation]. *)
Variable render_evaluation_parameter_string : renderer_fn -> renderer_fn.

(** [str(x)], which is what an f-string field [{x}] inserts. *)
Definition str (x : pyval) : string :=
  match x with
  | VNone => "None"
  | VBool true => "True"
  | VBool false => "False"
  | VInt z => str_int z
  | VStr s => s
  | VList _ | VDict _ => container_str x
  end.

(** [configuration['kwargs'].get('template_dict')[field]], where
    [configuration] may still be [None]. *)
Definition template_dict_field
    (configuration : option ExpectationConfiguration) (field : string)
    : res pyval :=
  match configuration with
  | None => Raise TypeError
  | Some c => getitem_str (dict_get (kwargs c) "template_dict") field
  end.

(** The four assertions of the [try] block, in order. *)
Definition field_assertions (column_list expression : pyval) : res unit :=
  assert_ (is_not_none column_list) "column list must be specified" ;;;
  assert_ (is_not_none expression) "logical expression must be specified" ;;;
  assert_ (is_nonempty_str column_list) "column list must be string" ;;;
  assert_ (is_nonempty_str expression) "logical expression must be a string".

Definition validate_configuration
    (self : Expectation) (configuration : option ExpectationConfiguration)
    : res unit :=
  super_validate_configuration self configuration ;;;
  let configuration := or_else configuration (self_configuration self) in
  column_list <- template_dict_field configuration "column_list" ;;
  expression <- template_dict_field configuration "expression" ;;
  try_except_AssertionError
    (field_assertions column_list expression)
    (fun msg => Raise (InvalidExpectationConfigurationError msg)).

(** [list(metrics.get('query.template_values')[0].values())[0]]. *)
Definition query_count_result (metrics : pydict) : res pyval :=
  row <- getitem_0 (dict_get metrics "query.template_values") ;;
  vs <- values row ;;
  list_getitem_0 vs.

Definition _validate
    (self : Expectation)
    (configuration : ExpectationConfiguration)
    (metrics : pydict)
    (runtime_configuration : option pydict)
    (execution_engine : option ExecutionEngine)
    : res ValidationResult :=
  query_count_result <- query_count_result metrics ;;
  if eq_zero query_count_result then
    Ok {| success := true;
          result := {| info := "The table matches the logical expression";
                       observed_value := "matches logical expression" |} |}
  else
    Ok {| success := false;
          result := {| info := "The table does not match the logical expression";
                       observed_value :=
                         "bad records count: " ++ str query_count_result |} |}.

(** [runtime_configuration or {}]: [None] and the empty dict are falsy. *)
Definition or_empty (runtime_configuration : option pydict) : pydict :=
  match runtime_configuration with
  | Some (e :: d) => e :: d
  | Some [] | None => []
  end.

(** The body of [_prescriptive_renderer], without its two decorators. *)
Definition _prescriptive_renderer_body
    (configuration : option ExpectationConfiguration)
    (result : option ValidationResult)
    (language : option string)
    (runtime_configuration : option pydict)
    : res (list RenderedStringTemplateContent) :=
  let runtime_configuration := or_empty runtime_configuration in
  let styling := dict_get runtime_configuration "styling" in
  c <- match configuration with
       | Some c => Ok c
       | None => Raise AttributeError
       end ;;
  let params := substitute_none_for_missing (kwargs c) ["template_dict"] in
  expression <- getitem_str (dict_get params "template_dict") "expression" ;;
  let template_str :=
    "expect table to match the expression " ++ str expression ++ " " in
  Ok [ {| content_block_type := "string_template";
          string_template := {| template := template_str;
                                params := params;
                                styling := styling |} |} ].

(** The class attribute [_prescriptive_renderer]: the body under
    [@render_evaluation_parameter_string], under
    [@renderer(renderer_type='renderer.prescriptive')]. *)
Definition _prescriptive_renderer : renderer_fn :=
  renderer "renderer.prescriptive"
    (render_evaluation_parameter_string _prescriptive_renderer_body).

(** What a call of [_validate] can reach: the instance and the objects
    passed in.  Python passes them by reference, so a call could change them
    for whoever calls next. *)
Record CallState : Type := {
  cs_self : Expectation;
  cs_configuration : ExpectationConfiguration;
  cs_metrics : pydict;
  cs_runtime_configuration : option pydict
}.

(** A step of a call: it returns or raises, and hands on the objects as it
    leaves them. *)
Definition Call (A : Type) : Type := CallState -> res A * CallState.

Definition call_ret {A : Type} (a : A) : Call A := fun st => (Ok a, st).

Definition call_bind {A B : Type} (m : Call A) (k : A -> Call B) : Call B :=
  fun st =>
    match m st with
    | (Ok a, st') => k a st'
    | (Raise e, st') => (Raise e, st')
    end.

(** An operation on values the call already holds. *)
Definition call_lift {A : Type} (r : res A) : Call A := fun st => (r, st).

(** [metrics.get(k)]: reads the mapping passed in. *)
Definition metrics_get (k : string) : Call pyval :=
  fun st => (Ok (dict_get (cs_metrics st) k), st).

Fixpoint dict_remove (d : pydict) (k : string) : pydict :=
  match d with
  | [] => []
  | (k', v) :: rest =>
      if String.eqb k' k then dict_remove rest k else (k', v) :: dict_remove rest k
  end.

(** [metrics.pop(k, None)]: reads the mapping passed in and takes the entry
    out of it, for every later reader. *)
Definition metrics_pop (k : string) : Call pyval :=
  fun st =>
    (Ok (dict_get (cs_metrics st) k),
     {| cs_self := cs_self st;
        cs_configuration := cs_configuration st;
        cs_metrics := dict_remove (cs_metrics st) k;
        cs_runtime_configuration := cs_runtime_configuration st |}).

(** The outcome for the value read (lines 91 to 103). *)
Definition outcome_of (query_count_result : pyval) : ValidationResult :=
  if eq_zero query_count_result then
    {| success := true;
       result := {| info := "The table matches the logical expression";
                    observed_value := "matches logical expression" |} |}
  else
    {| success := false;
       result := {| info := "The table does not match the logical expression";
                    observed_value :=
                      "bad records count: " ++ str query_count_result |} |}.

(** One call of [_validate] on the objects of [st], operation by operation:
    [metrics.get] on the mapping passed in, then the subscript, [.values()],
    [list(...)] and its subscript on what was read, then the comparison and
    the returned dict. *)
Definition _validate_call
    (execution_engine : option ExecutionEngine) : Call ValidationResult :=
  call_bind (metrics_get "query.template_values") (fun template_values =>
  call_bind (call_lift (getitem_0 template_values)) (fun row =>
  call_bind (call_lift (values row)) (fun vs =>
  call_bind (call_lift (list_getitem_0 vs)) (fun query_count_result =>
  call_ret (outcome_of query_count_result))))).

(** The same call had line 90 been written with [metrics.pop] in place of
    [metrics.get]. *)
Definition _validate_popping
    (execution_engine : option ExecutionEngine) : Call ValidationResult :=
  call_bind (metrics_pop "query.template_values") (fun template_values =>
  call_bind (call_lift (getitem_0 template_values)) (fun row =>
  call_bind (call_lift (values row)) (fun vs =>
  call_bind (call_lift (list_getitem_0 vs)) (fun query_count_result =>
  call_ret (outcome_of query_count_result))))).

End ExpectQueriedColumnsToMatchLogicalExpression.

Arguments _validate container_str {ExecutionEngine}.
Arguments _validate_call container_str {ExecutionEngine}.
Arguments _validate_popping container_str {ExecutionEngine}.

(** ** The two decorators

    What is taken of the two decorators of [_prescriptive_renderer], which
    live in the library and not in this module:
    - [renderer] calls the function it wraps and returns what that returns;
    - [render_evaluation_parameter_string] first calls the function it wraps,
      so what that raises is raised;
    - it then returns the rendered list as it is when the configuration has
      no evaluation parameter,
    - and raises [GreatExpectationsError] when the configuration has one and
      no runtime configuration (or an empty one) was passed in. *)
Record decorators_as_in_library
    (renderer : string -> renderer_fn -> renderer_fn)
    (render_evaluation_parameter_string : renderer_fn -> renderer_fn)
    : Prop := {
  renderer_calls_through :
    forall renderer_type f configuration result language runtime_configuration,
      renderer renderer_type f configuration result language
               runtime_configuration =
      f configuration result language runtime_configuration;
  wrapped_runs_first :
    forall f configuration result language runtime_configuration e,
      f configuration result language runtime_configuration = Raise e ->
      render_evaluation_parameter_string f configuration result language
        runtime_configuration = Raise e;
  no_parameter_no_change :
    forall f c result language runtime_configuration blocks,
      f (Some c) result language runtime_configuration = Ok blocks ->
      evaluation_parameters (kwargs c) = [] ->
      render_evaluation_parameter_string f (Some c) result language
        runtime_configuration = Ok blocks;
  parameter_not_passed_in :
    forall f c result language runtime_configuration blocks,
      f (Some c) result language runtime_configuration = Ok blocks ->
      evaluation_parameters (kwargs c) <> [] ->
      or_empty runtime_configuration = [] ->
      render_evaluation_parameter_string f (Some c) result language
        runtime_configuration = Raise (OtherError "GreatExpectationsError")
}.

(** ** Build-query *)

(** Modelled from the spec: the text bound to a placeholder name, which the
    metric provider (not in this module) looks up when it fills the template. *)
Fixpoint binding (bindings : list (string * string)) (name : string)
    : option string :=
  match bindings with
  | [] => None
  | (n, v) :: rest => if String.eqb n name then Some v else binding rest name
  end.

(** Modelled from the spec: the function that fills the template is in the
    metric provider [query.template_values], not in this module.  The spec
    has it substitute [column_list], [expression] and the batch reference into
    the fixed template, verbatim.  [substitute] scans the template once from
    the left; [field] holds the placeholder name read so far, if the scan is
    inside braces.  Inserted text is not scanned again. *)
Fixpoint substitute (tmpl : string) (field : option string)
    (bindings : list (string * string)) : res string :=
  match tmpl, field with
  | EmptyString, None => Ok EmptyString
  | EmptyString, Some _ => Raise ValueError
  | String c rest, None =>
      if Ascii.eqb c "{" then substitute rest (Some EmptyString) bindings
      else if Ascii.eqb c "}" then Raise ValueError
      else r <- substitute rest None bindings ;; Ok (String c r)
  | String c rest, Some name =>
      if Ascii.eqb c "}" then
        match binding bindings name with
        | Some v => r <- substitute rest None bindings ;; Ok (v ++ r)
        | None => Raise (KeyError (VStr name))
        end
      else substitute rest (Some (name ++ String c EmptyString)) bindings
  end.

(** Modelled from the spec: Build-query, a function of [column_list],
    [expression] and the batch reference, filling the class's [query]. *)
Definition build_query (column_list expression active_batch : string)
    : res string :=
  substitute query None
    [ ("column_list", column_list);
      ("active_batch", active_batch);
      ("expression", expression) ].

(** SQL reads any run of blanks and line breaks as one separator;
    [sql_shape] is the text with every such run replaced by one space and
    none at either end. *)
Definition is_blank (c : ascii) : bool :=
  Ascii.eqb c " " || Ascii.eqb c (ascii_of_nat 10) ||
  Ascii.eqb c (ascii_of_nat 9) || Ascii.eqb c (ascii_of_nat 13).

Fixpoint words (s : string) (cur : string) : list string :=
  match s with
  | EmptyString => match cur with EmptyString => [] | _ => [cur] end
  | String c rest =>
      if is_blank c then
        match cur with
        | EmptyString => words rest EmptyString
        | _ => cur :: words rest EmptyString
        end
      else words rest (cur ++ String c EmptyString)
  end.

Definition sql_shape (s : string) : string :=
  String.concat " " (words s EmptyString).

(** A field value the configuration check must refuse: [None], not a
    string, or the empty string. *)
Definition bad_field (v : pyval) : Prop :=
  v = VNone \/ (forall s : string, v <> VStr s) \/ v = VStr EmptyString.

(** ** Sample objects

    The configurations of the class's own [examples], a metrics mapping as the
    metric provider returns it, and one way to write the rendering helper. *)

Definition configuration_of (template_dict : pyval) : ExpectationConfiguration :=
  {| expectation_type := "expect_queried_columns_to_match_logical_expression";
     kwargs := [("template_dict", template_dict)];
     meta := VNone |}.

Definition template_dict_of (column_list expression : pyval) : pyval :=
  VDict [("column_list", column_list); ("expression", expression)].

Definition basic_positive_test_and : ExpectationConfiguration :=
  configuration_of
    (template_dict_of (VStr "col1,col2,col3")
                      (VStr "col1>0 and col2>=3 and col3<5")).

Definition basic_negative_test_and : ExpectationConfiguration :=
  configuration_of
    (template_dict_of (VStr "col1,col2") (VStr "col1>1 and col2>=3")).

(** Configurations the examples do not cover: an empty column list, a column
    list that is a number, a [template_dict] without ['column_list'], no
    [template_dict] at all, and the expression [col1>0]. *)
Definition empty_column_list : ExpectationConfiguration :=
  configuration_of (template_dict_of (VStr "") (VStr "col1>0")).

Definition integer_column_list : ExpectationConfiguration :=
  configuration_of (template_dict_of (VInt 5) (VStr "col1>0")).

Definition missing_column_list : ExpectationConfiguration :=
  configuration_of (VDict [("expression", VStr "col1>0")]).

Definition no_template_dict : ExpectationConfiguration :=
  {| expectation_type := "expect_queried_columns_to_match_logical_expression";
     kwargs := [];
     meta := VNone |}.

Definition col1_positive : ExpectationConfiguration :=
  configuration_of (template_dict_of (VStr "col1") (VStr "col1>0")).

Definition unconfigured : Expectation := {| self_configuration := None |}.

Definition metrics_of_count (column : string) (count : pyval) : pydict :=
  [("query.template_values", VList [VDict [(column, count)]])].

(** A metrics mapping with another metric beside the query's, and a query
    result of two rows, the first with two columns. *)
Definition metrics_two_rows : pydict :=
  [ ("table.row_count", VInt 6);
    ("query.template_values",
     VList [ VDict [("COUNT(*)", VInt 2); ("other", VInt 0)];
             VDict [("COUNT(*)", VInt 0)] ]) ].

(** Two sets of bindings for the template that agree on the three names and
    on nothing else. *)
Definition bindings_in_template_order : list (string * string) :=
  [ ("column_list", "col1,col2");
    ("active_batch", "test_table");
    ("expression", "col1>1 and col2>=3") ].

Definition bindings_with_more : list (string * string) :=
  [ ("result_format", "BASIC");
    ("expression", "col1>1 and col2>=3");
    ("row_condition", "col3<5");
    ("active_batch", "test_table");
    ("column_list", "col1,col2") ].

(** The objects of a call whose metrics hold a count of 0. *)
Definition call_on_count_0 : CallState :=
  {| cs_self := unconfigured;
     cs_configuration := basic_positive_test_and;
     cs_metrics := metrics_of_count "COUNT(*)" (VInt 0);
     cs_runtime_configuration := None |}.

(** The base class accepting every configuration. *)
Definition super_accepts
    (self : Expectation) (configuration : option ExpectationConfiguration)
    : res unit := Ok tt.

(** A copy of [kwargs] with [None] under each listed name it lacks. *)
Fixpoint none_for_missing (kwargs : pydict) (names : list string) : pydict :=
  match names with
  | [] => kwargs
  | n :: rest =>
      match dict_lookup kwargs n with
      | Some _ => none_for_missing kwargs rest
      | None => none_for_missing (kwargs ++ [(n, VNone)])%list rest
      end
  end.

(** The decorator [renderer] written out: the wrapper calls through. *)
Definition library_renderer (renderer_type : string) (renderer_fn_ : renderer_fn)
    : renderer_fn :=
  fun configuration result language runtime_configuration =>
    renderer_fn_ configuration result language runtime_configuration.

(** The template of the block added for an evaluation parameter. *)
Definition app_template_str : string :=
  nl ++ " - $eval_param = $eval_param_value (at time of validation).".

(** [key == param or key in param] for a text [key]. *)
Definition names_parameter (key : string) (param : pyval) : res bool :=
  match param with
  | VStr p => Ok (contains key p)
  | VList l =>
      Ok (existsb (fun x => match x with
                            | VStr s => String.eqb s key
                            | _ => false
                            end) l)
  | VDict d => Ok (match dict_lookup d key with Some _ => true | None => false end)
  | VNone | VBool _ | VInt _ => Raise TypeError
  end.

(** The blocks added for one entry of the evaluation parameters passed in:
    one for each parameter of the configuration that the entry's name
    matches. *)
Fixpoint blocks_for_entry (key : string) (val styling : pyval)
    (current_expectation_params : list pyval)
    : res (list RenderedStringTemplateContent) :=
  match current_expectation_params with
  | [] => Ok []
  | param :: rest =>
      named <- names_parameter key param ;;
      more <- blocks_for_entry key val styling rest ;;
      Ok (if named : bool then
            {| content_block_type := "string_template";
               string_template :=
                 {| template := app_template_str;
                    params := [("eval_param", VStr key);
                               ("eval_param_value", val)];
                    styling := styling |} |} :: more
          else more)
  end.

Fixpoint blocks_for_entries (eval_params : pydict) (styling : pyval)
    (current_expectation_params : list pyval)
    : res (list RenderedStringTemplateContent) :=
  match eval_params with
  | [] => Ok []
  | (key, val) :: rest =>
      here <- blocks_for_entry key val styling current_expectation_params ;;
      more <- blocks_for_entries rest styling current_expectation_params ;;
      Ok (here ++ more)%list
  end.

(** The decorator [render_evaluation_parameter_string] written out: render,
    collect the configuration's evaluation parameters, and when there are
    some, add a block for each one passed in with the runtime configuration,
    or raise when no runtime configuration came. *)
Definition library_render_evaluation_parameter_string
    (render_func : renderer_fn) : renderer_fn :=
  fun configuration result language runtime_configuration =>
    rendered_string_template <-
      render_func configuration result language runtime_configuration ;;
    c <- match configuration with
         | Some c => Ok c
         | None => Raise AttributeError
         end ;;
    match evaluation_parameters (kwargs c) with
    | [] => Ok rendered_string_template
    | param :: params_ =>
        match or_empty runtime_configuration with
        | [] => Raise (OtherError "GreatExpectationsError")
        | entry :: entries =>
            let runtime_configuration := entry :: entries in
            eval_params <-
              match dict_lookup runtime_configuration "evaluation_parameters" with
              | None => Ok []
              | Some (VDict d) => Ok d
              | Some _ => Raise AttributeError
              end ;;
            appended <-
              blocks_for_entries eval_params
                (dict_get runtime_configuration "styling") (param :: params_) ;;
            Ok (rendered_string_template ++ appended)%list
        end
    end.

(** The configuration [col1_positive] with an evaluation parameter in its
    [template_dict]. *)
Definition with_evaluation_parameter : ExpectationConfiguration :=
  configuration_of
    (VDict [ ("column_list", VStr "col1");
             ("expression", VStr "col1>0");
             ("$PARAMETER", VStr "upstream_row_count") ]).

(** A list is printed by no sample; any text will do for it. *)
Definition no_container_str (x : pyval) : string := "[...]".

(** ** The bundled examples

    The class attribute [examples]: one data set and four tests, each with
    the kwargs it passes in and the [success] it expects. *)

Record ExampleTest : Type := {
  title : string;
  exact_match_out : bool;
  include_in_gallery : bool;
  test_in : pydict;
  test_out_success : bool
}.

Definition example_data : list (string * list Z) :=
  [ ("col1", [1; 2; 3; 4; 5; 5]);
    ("col2", [10; 3; 4; 4; 5; 5]);
    ("col3", [1; 2; 2; 3; 4; 4]) ].

Definition only_for : list string :=
  ["sqlite"; "vertica"; "mysql"; "postgresql"; "spark"].

Definition example_tests : list ExampleTest :=
  [ {| title := "basic_positive_test_and";
       exact_match_out := false;
       include_in_gallery := true;
       test_in :=
         [("template_dict",
           VDict [("column_list", VStr "col1,col2,col3");
                  ("expression", VStr "col1>0 and col2>=3 and col3<5")])];
       test_out_success := true |};
    {| title := "basic_negative_test_and";
       exact_match_out := false;
       include_in_gallery := true;
       test_in :=
         [("template_dict",
           VDict [("column_list", VStr "col1,col2");
                  ("expression", VStr "col1>1 and col2>=3")])];
       test_out_success := false |};
    {| title := "basic_positive_test_or";
       exact_match_out := false;
       include_in_gallery := true;
       test_in :=
         [("template_dict",
           VDict [("column_list", VStr "col1,col3");
                  ("expression", VStr "col1>3 or col3<3")])];
       test_out_success := true |};
    {| title := "basic_negative_test_or";
       exact_match_out := false;
       include_in_gallery := true;
       test_in :=
         [("template_dict",
           VDict [("column_list", VStr "col1,col2");
                  ("expression", VStr "col1=5 or col2=4")])];
       test_out_success := false |} ].

(** The configuration a test's kwargs make. *)
Definition configuration_of_test (t : ExampleTest) : ExpectationConfiguration :=
  {| expectation_type := "expect_queried_columns_to_match_logical_expression";
     kwargs := test_in t;
     meta := VNone |}.

(** The messages of the four assertions of [validate_configuration]. *)
Definition assertion_messages : list string :=
  [ "column list must be specified";
    "logical expression must be specified";
    "column list must be string";
    "logical expression must be a string" ].

(** The exceptions that reading the count in [_validate] can raise. *)
Definition read_failures : list exn :=
  [TypeError; IndexError; AttributeError; KeyError (VInt 0)].

(** ** Text lemmas *)






(** [str] of an integer reads back as that integer. *)
Lemma int_of_str_str_int (n : Z) : int_of_str (str_int n) = Some n.
Proof.
  unfold int_of_str, str_int. rewrite NilEmpty.isi. simpl.
  now rewrite DecimalZ.of_to.
Qed.

Lemma is_nonempty_str_false (v : pyval) :
  is_nonempty_str v = false <-> bad_field v.
Proof.
  unfold bad_field; split.
  - destruct v as [| | |s| |]; simpl; intros H;
      try (right; left; intros s'; discriminate); try (left; reflexivity).
    destruct s; [right; right; reflexivity | discriminate].
  - intros [->|[H| ->]]; try reflexivity.
    destruct v as [| | |s| |]; try reflexivity. now elim (H s).
Qed.

(** ** Evaluate: [_validate] *)

Section Validate.

Variable container_str : pyval -> string.
Variable ExecutionEngine : Type.

Implicit Types (self : Expectation) (configuration : ExpectationConfiguration)
  (metrics : pydict) (runtime_configuration : option pydict)
  (execution_engine : option ExecutionEngine).

(** A metrics mapping holding one row with one value yields that value. *)
Lemma query_count_result_of_count (column : string) (count : pyval) :
  query_count_result (metrics_of_count column count) = Ok count.
Proof. reflexivity. Qed.

(** What [_validate] returns is fixed by the value read from [metrics]. *)
Lemma _validate_of_count self configuration metrics runtime_configuration
    execution_engine (v : pyval) :
  query_count_result metrics = Ok v ->
  _validate container_str self configuration metrics runtime_configuration
            execution_engine
  = Ok (if eq_zero v then
          {| success := true;
             result := {| info := "The table matches the logical expression";
                          observed_value := "matches logical expression" |} |}
        else
          {| success := false;
             result := {| info := "The table does not match the logical expression";
                          observed_value := "bad records count: " ++ str container_str v |} |}).
Proof.
  intros H. unfold _validate. rewrite H. simpl. now destruct (eq_zero v).
Qed.

(** A failure to read the count is the failure of the call. *)
Lemma _validate_raises self configuration metrics runtime_configuration
    execution_engine (e : exn) :
  query_count_result metrics = Raise e ->
  _validate container_str self configuration metrics runtime_configuration
            execution_engine = Raise e.
Proof. intros H. unfold _validate. now rewrite H. Qed.


(** C3, as the code has it.  For a count of 0 the outcome is [success = true]
    with info "The table matches the logical expression" and the fixed
    observed value "matches logical expression"; for every count above 0 it is
    [success = false] with info "The table does not match the logical
    expression" and the observed value "bad records count: " followed by the
    decimal text of the count. *)
Theorem validate_outcome_by_count self configuration metrics
    runtime_configuration execution_engine (n : Z) :
  query_count_result metrics = Ok (VInt n) ->
  (n = 0 ->
   _validate container_str self configuration metrics runtime_configuration
             execution_engine
   = Ok {| success := true;
           result := {| info := "The table matches the logical expression";
                        observed_value := "matches logical expression" |} |}) /\
  (0 < n ->
   _validate container_str self configuration metrics runtime_configuration
             execution_engine
   = Ok {| success := false;
           result := {| info := "The table does not match the logical expression";
                        observed_value := "bad records count: " ++ str_int n |} |}).
Proof.
  intros H. rewrite (_validate_of_count _ _ _ _ _ _ H). simpl eq_zero.
  split; intros Hn.
  - subst n. reflexivity.
  - destruct (Z.eqb_spec n 0) as [->|_]; [lia | reflexivity].
Qed.

(** Every operation of the call hands the objects on as it got them, whether
    the call returns or raises. *)
Lemma _validate_call_keeps (execution_engine : option ExecutionEngine)
    (st : CallState) :
  snd (_validate_call container_str execution_engine st) = st.
Proof.
  unfold _validate_call, call_bind, metrics_get, call_lift, call_ret.
  destruct (getitem_0 (dict_get (cs_metrics st) "query.template_values"))
    as [row|e]; [|reflexivity].
  destruct (values row) as [vs|e]; [|reflexivity].
  destruct (list_getitem_0 vs) as [v|e]; reflexivity.
Qed.

(** What the call returns is what [_validate] returns on the objects. *)
Lemma _validate_call_returns (execution_engine : option ExecutionEngine)
    (st : CallState) :
  fst (_validate_call container_str execution_engine st) =
  _validate container_str (cs_self st) (cs_configuration st) (cs_metrics st)
            (cs_runtime_configuration st) execution_engine.
Proof.
  unfold _validate_call, call_bind, metrics_get, call_lift, call_ret,
    _validate, query_count_result, outcome_of.
  destruct (getitem_0 (dict_get (cs_metrics st) "query.template_values"))
    as [row|e]; cbn [bind fst]; [|reflexivity].
  destruct (values row) as [vs|e]; cbn [bind fst]; [|reflexivity].
  destruct (list_getitem_0 vs) as [v|e]; cbn [bind fst]; [|reflexivity].
  now destruct (eq_zero v).
Qed.

(** With [pop] in place of [get] the property is lost: on a count of 0 the
    first call passes, the second raises, and the metrics have changed. *)
Lemma validate_popping_not_idempotent
    (execution_engine : option ExecutionEngine) :
  let first := _validate_popping container_str execution_engine
                 call_on_count_0 in
  let second := _validate_popping container_str execution_engine (snd first) in
  fst first <> fst second /\ snd first <> call_on_count_0 /\
  fst second = Raise TypeError.
Proof. cbv. repeat split; discriminate. Qed.

(** C6. Two calls of [_validate] in a row on the same objects, hence with the
    same count, return the same outcome, the one [_validate] gives for the
    objects, and each call leaves the instance and the objects passed in as it
    found them. *)
Theorem validate_call_idempotent (execution_engine : option ExecutionEngine)
    (st : CallState) :
  let first := _validate_call container_str execution_engine st in
  let second := _validate_call container_str execution_engine (snd first) in
  fst first = fst second /\ snd first = st /\ snd second = st /\
  fst first =
    _validate container_str (cs_self st) (cs_configuration st) (cs_metrics st)
              (cs_runtime_configuration st) execution_engine.
Proof.
  intros first second.
  assert (S1 : snd first = st) by apply _validate_call_keeps.
  subst second. rewrite S1.
  split; [reflexivity|]. split; [reflexivity|].
  split; [apply _validate_call_keeps | apply _validate_call_returns].
Qed.

(** C10. Two calls whose metrics yield the same value under
    ['query.template_values'] return the same outcome, whatever instance,
    configuration, runtime configuration and execution engine each is
    given. *)
Theorem validate_noninterference
    self1 self2 configuration1 configuration2 metrics1 metrics2
    runtime_configuration1 runtime_configuration2
    execution_engine1 execution_engine2 :
  query_count_result metrics1 = query_count_result metrics2 ->
  _validate container_str self1 configuration1 metrics1
            runtime_configuration1 execution_engine1 =
  _validate container_str self2 configuration2 metrics2
            runtime_configuration2 execution_engine2.
Proof. intros H. unfold _validate. now rewrite H. Qed.

End Validate.

(** ** Configure-and-validate: [validate_configuration] *)

Section ValidateConfiguration.

Variable super_validate_configuration :
  Expectation -> option ExpectationConfiguration -> res unit.

Implicit Types (self : Expectation)
  (configuration : option ExpectationConfiguration)
  (c : ExpectationConfiguration) (td : pydict)
  (column_list expression : pyval).

(** An exception of the base class is the exception of the call. *)
Lemma validate_configuration_super_raises self configuration (e : exn) :
  super_validate_configuration self configuration = Raise e ->
  validate_configuration super_validate_configuration self configuration = Raise e.
Proof. intros H. unfold validate_configuration. now rewrite H. Qed.

(** Once both fields are read, the call is the four assertions with an
    [AssertionError] turned into an [InvalidExpectationConfigurationError]. *)
Lemma validate_configuration_fields self configuration c td
    column_list expression :
  or_else configuration (self_configuration self) = Some c ->
  dict_lookup (kwargs c) "template_dict" = Some (VDict td) ->
  dict_lookup td "column_list" = Some column_list ->
  dict_lookup td "expression" = Some expression ->
  super_validate_configuration self configuration = Ok tt ->
  validate_configuration super_validate_configuration self configuration =
  try_except_AssertionError
    (field_assertions column_list expression)
    (fun msg => Raise (InvalidExpectationConfigurationError msg)).
Proof.
  intros Hc Htd Hcl Hex Hsuper.
  unfold validate_configuration, template_dict_field, dict_get.
  rewrite Hsuper, Hc. simpl. rewrite Htd. simpl. now rewrite Hcl, Hex.
Qed.

(** Two non-empty strings pass. *)
Lemma validate_configuration_accepts self configuration c td
    column_list expression :
  or_else configuration (self_configuration self) = Some c ->
  dict_lookup (kwargs c) "template_dict" = Some (VDict td) ->
  dict_lookup td "column_list" = Some column_list ->
  dict_lookup td "expression" = Some expression ->
  super_validate_configuration self configuration = Ok tt ->
  is_nonempty_str column_list = true ->
  is_nonempty_str expression = true ->
  validate_configuration super_validate_configuration self configuration = Ok tt.
Proof.
  intros Hc Htd Hcl Hex Hsuper H1 H2.
  rewrite (validate_configuration_fields _ _ _ _ _ _ Hc Htd Hcl Hex Hsuper).
  unfold field_assertions.
  destruct column_list; try discriminate; destruct expression; try discriminate.
  simpl in *. now rewrite H1, H2.
Qed.

(** A field that [template_dict] does not hold escapes as a [KeyError]. *)
Lemma validate_configuration_missing_column_list self configuration c td :
  or_else configuration (self_configuration self) = Some c ->
  dict_lookup (kwargs c) "template_dict" = Some (VDict td) ->
  dict_lookup td "column_list" = None ->
  super_validate_configuration self configuration = Ok tt ->
  validate_configuration super_validate_configuration self configuration =
  Raise (KeyError (VStr "column_list")).
Proof.
  intros Hc Htd Hcl Hsuper.
  unfold validate_configuration, template_dict_field, dict_get.
  rewrite Hsuper, Hc. simpl. rewrite Htd. simpl. now rewrite Hcl.
Qed.

(** When [template_dict] holds both fields and [column_list] or [expression]
    is [None], not a string, or the empty string, [validate_configuration]
    (the base class having accepted) raises
    [InvalidExpectationConfigurationError] with the message of the first
    assertion that fails: presence of the column list, presence of the
    expression, then "column list must be string" for a column list that is
    not a string or is empty, then "logical expression must be a string"
    likewise.  The call runs no query: it is a function of the instance and
    the configuration alone. *)
Lemma validate_configuration_rejects_bad_fields self configuration c td
    column_list expression :
  or_else configuration (self_configuration self) = Some c ->
  dict_lookup (kwargs c) "template_dict" = Some (VDict td) ->
  dict_lookup td "column_list" = Some column_list ->
  dict_lookup td "expression" = Some expression ->
  super_validate_configuration self configuration = Ok tt ->
  bad_field column_list \/ bad_field expression ->
  exists msg : string,
    validate_configuration super_validate_configuration self configuration =
      Raise (InvalidExpectationConfigurationError msg) /\
    (column_list = VNone -> msg = "column list must be specified") /\
    (column_list <> VNone -> expression = VNone ->
     msg = "logical expression must be specified") /\
    (column_list <> VNone -> expression <> VNone -> bad_field column_list ->
     msg = "column list must be string") /\
    (~ bad_field column_list -> expression <> VNone ->
     msg = "logical expression must be a string").
Proof.
  intros Hc Htd Hcl Hex Hsuper Hbad.
  rewrite (validate_configuration_fields _ _ _ _ _ _ Hc Htd Hcl Hex Hsuper).
  unfold field_assertions.
  destruct (is_nonempty_str column_list) eqn:E1;
    destruct (is_nonempty_str expression) eqn:E2.
  - exfalso. destruct Hbad as [H|H]; apply is_nonempty_str_false in H; congruence.
  - assert (N1 : ~ bad_field column_list)
      by (intros B; apply is_nonempty_str_false in B; congruence).
    destruct column_list; try discriminate.
    destruct expression; simpl in E2 |- *; try rewrite E1; try rewrite E2;
      simpl; eexists; (split; [reflexivity|]);
      repeat split; intros; try congruence; try contradiction.
  - assert (B1 : bad_field column_list) by now apply is_nonempty_str_false.
    destruct expression; try discriminate.
    destruct column_list; simpl in E1 |- *; try rewrite E1; try rewrite E2;
      simpl; eexists; (split; [reflexivity|]);
      repeat split; intros; try congruence; try contradiction.
  - assert (B1 : bad_field column_list) by now apply is_nonempty_str_false.
    destruct column_list; destruct expression;
      simpl in E1, E2 |- *; try rewrite E1; try rewrite E2;
      simpl; eexists; (split; [reflexivity|]);
      repeat split; intros; try congruence; try contradiction.
Qed.

(** C9. When [kwargs] has no ['template_dict'] key, or holds [None] under it,
    the subscript of what [.get] returned raises [TypeError] before any of the
    field assertions is reached; the call raises that [TypeError], which is
    not an [InvalidExpectationConfigurationError]. *)
Theorem validate_configuration_without_template_dict self configuration c :
  or_else configuration (self_configuration self) = Some c ->
  dict_lookup (kwargs c) "template_dict" = None \/
  dict_lookup (kwargs c) "template_dict" = Some VNone ->
  super_validate_configuration self configuration = Ok tt ->
  template_dict_field (Some c) "column_list" = Raise TypeError /\
  validate_configuration super_validate_configuration self configuration = Raise TypeError /\
  (forall msg : string,
     validate_configuration super_validate_configuration self configuration <>
     Raise (InvalidExpectationConfigurationError msg)).
Proof.
  intros Hc Htd Hsuper.
  assert (F : template_dict_field (Some c) "column_list" = Raise TypeError)
    by (unfold template_dict_field, dict_get; destruct Htd as [-> | ->];
        reflexivity).
  assert (V : validate_configuration super_validate_configuration self configuration = Raise TypeError)
    by (unfold validate_configuration; rewrite Hsuper; cbn [bind]; cbv zeta;
        now rewrite Hc, F).
  repeat split; [exact F | exact V | rewrite V; discriminate].
Qed.

End ValidateConfiguration.

(** ** Defaults *)


(** The one further default is the query itself. *)
Lemma default_kwarg_values_keys :
  map fst default_kwarg_values =
  [ "result_format"; "include_config"; "catch_exceptions"; "meta";
    "template_dict"; "expression"; "query" ] /\
  dict_lookup default_kwarg_values "query" = Some (VStr query).
Proof. split; reflexivity. Qed.

(** ** Build-query *)

(** The query for any three inputs, piece by piece. *)
Lemma build_query_text (column_list expression active_batch : string) :
  build_query column_list expression active_batch =
  Ok (" SELECT COUNT(*)" ++ nl ++
      "                    FROM (SELECT " ++ column_list ++ nl ++
      "                    FROM " ++ active_batch ++ " a" ++ nl ++
      "                    WHERE not (" ++ expression ++ ")) b" ++ nl ++
      "                ").
Proof. reflexivity. Qed.

(** Filling the class's template looks up three names and no other: the
    outcome is fixed by what the bindings hold for [column_list],
    [active_batch] and [expression]. *)
Lemma substitute_query (bindings : list (string * string)) :
  substitute query None bindings =
  match binding bindings "column_list" with
  | None => Raise (KeyError (VStr "column_list"))
  | Some column_list =>
      match binding bindings "active_batch" with
      | None => Raise (KeyError (VStr "active_batch"))
      | Some active_batch =>
          match binding bindings "expression" with
          | None => Raise (KeyError (VStr "expression"))
          | Some expression =>
              build_query column_list expression active_batch
          end
      end
  end.
Proof.
  unfold query. cbn.
  destruct (binding bindings "column_list") as [column_list|]; [|reflexivity].
  cbn.
  destruct (binding bindings "active_batch") as [active_batch|]; [|reflexivity].
  cbn.
  destruct (binding bindings "expression") as [expression|]; reflexivity.
Qed.

(** C4. Build-query depends on its three inputs only.  Two invocations that
    fill the template from any two sets of bindings, whatever else those hold
    and in whatever order, give the same text, character for character, as
    soon as both bind column list, expression and batch reference to the same
    three texts; that text is the class's one [query] template with the three
    substituted. *)
Theorem build_query_deterministic
    (bindings bindings' : list (string * string))
    (column_list expression active_batch : string) :
  binding bindings "column_list" = Some column_list ->
  binding bindings "expression" = Some expression ->
  binding bindings "active_batch" = Some active_batch ->
  binding bindings' "column_list" = Some column_list ->
  binding bindings' "expression" = Some expression ->
  binding bindings' "active_batch" = Some active_batch ->
  substitute query None bindings = substitute query None bindings' /\
  substitute query None bindings =
    build_query column_list expression active_batch /\
  substitute query None bindings =
    Ok (" SELECT COUNT(*)" ++ nl ++
        "                    FROM (SELECT " ++ column_list ++ nl ++
        "                    FROM " ++ active_batch ++ " a" ++ nl ++
        "                    WHERE not (" ++ expression ++ ")) b" ++ nl ++
        "                ").
Proof.
  intros C E B C' E' B'.
  rewrite !substitute_query, C, E, B, C', E', B'.
  split; [reflexivity|]. split; [reflexivity | apply build_query_text].
Qed.

(** C5. Up to the layout of blanks and line breaks the template is the
    count-all select over the subselect of <column_list> from <batch> a where
    not (<expression>), named b, as the statement below spells it; and the
    query built for any column list, expression and batch is the template's
    fixed pieces around those three texts, unchanged: nothing is escaped or
    quoted. *)
Theorem query_shape_and_verbatim_insertion :
  sql_shape query =
  "SELECT COUNT(*) FROM (SELECT {column_list} FROM {active_batch} a WHERE not ({expression})) b" /\
  (exists sql : string,
     build_query "<column_list>" "<expression>" "<batch>" = Ok sql /\
     sql_shape sql =
     "SELECT COUNT(*) FROM (SELECT <column_list> FROM <batch> a WHERE not (<expression>)) b") /\
  forall column_list expression active_batch : string,
    build_query column_list expression active_batch =
    Ok (" SELECT COUNT(*)" ++ nl ++
        "                    FROM (SELECT " ++ column_list ++ nl ++
        "                    FROM " ++ active_batch ++ " a" ++ nl ++
        "                    WHERE not (" ++ expression ++ ")) b" ++ nl ++
        "                ").
Proof.
  split; [reflexivity|]. split.
  - eexists; split; [apply build_query_text | reflexivity].
  - apply build_query_text.
Qed.

(** ** Render-description: [_prescriptive_renderer] *)

Section PrescriptiveRenderer.

Variable substitute_none_for_missing : pydict -> list string -> pydict.
Variable container_str : pyval -> string.
Variable renderer : string -> renderer_fn -> renderer_fn.
Variable render_evaluation_parameter_string : renderer_fn -> renderer_fn.

(** What the body raises, the decorated renderer raises. *)
Lemma prescriptive_renderer_raises
    (configuration : option ExpectationConfiguration)
    (result : option ValidationResult) (language : option string)
    (runtime_configuration : option pydict) (e : exn) :
  decorators_as_in_library renderer render_evaluation_parameter_string ->
  _prescriptive_renderer_body substitute_none_for_missing container_str
    configuration result language runtime_configuration = Raise e ->
  _prescriptive_renderer substitute_none_for_missing container_str
    renderer render_evaluation_parameter_string
    configuration result language runtime_configuration = Raise e.
Proof.
  intros D H. unfold _prescriptive_renderer.
  rewrite (renderer_calls_through _ _ D).
  now apply (wrapped_runs_first _ _ D).
Qed.

(** Without an evaluation parameter in the configuration, what the body
    returns, the decorated renderer returns. *)
Lemma prescriptive_renderer_returns
    (c : ExpectationConfiguration)
    (result : option ValidationResult) (language : option string)
    (runtime_configuration : option pydict)
    (blocks : list RenderedStringTemplateContent) :
  decorators_as_in_library renderer render_evaluation_parameter_string ->
  evaluation_parameters (kwargs c) = [] ->
  _prescriptive_renderer_body substitute_none_for_missing container_str
    (Some c) result language runtime_configuration = Ok blocks ->
  _prescriptive_renderer substitute_none_for_missing container_str
    renderer render_evaluation_parameter_string
    (Some c) result language runtime_configuration = Ok blocks.
Proof.
  intros D N H. unfold _prescriptive_renderer.
  rewrite (renderer_calls_through _ _ D).
  now apply (no_parameter_no_change _ _ D).
Qed.

(** With an evaluation parameter in the configuration and no runtime
    configuration, the decorated renderer raises once the body has
    returned. *)
Lemma prescriptive_renderer_not_passed_in
    (c : ExpectationConfiguration)
    (result : option ValidationResult) (language : option string)
    (runtime_configuration : option pydict)
    (blocks : list RenderedStringTemplateContent) :
  decorators_as_in_library renderer render_evaluation_parameter_string ->
  evaluation_parameters (kwargs c) <> [] ->
  or_empty runtime_configuration = [] ->
  _prescriptive_renderer_body substitute_none_for_missing container_str
    (Some c) result language runtime_configuration = Ok blocks ->
  _prescriptive_renderer substitute_none_for_missing container_str
    renderer render_evaluation_parameter_string
    (Some c) result language runtime_configuration =
  Raise (OtherError "GreatExpectationsError").
Proof.
  intros D N R H. unfold _prescriptive_renderer.
  rewrite (renderer_calls_through _ _ D).
  now apply (parameter_not_passed_in _ _ D _ _ _ _ _ blocks).
Qed.

(** The renderer on a configuration whose helper output still holds the
    configuration's [template_dict]. *)
Lemma prescriptive_renderer_template
    (c : ExpectationConfiguration) (td : pydict) (expression : pyval)
    (result : option ValidationResult) (language : option string)
    (runtime_configuration : option pydict) :
  dict_get (substitute_none_for_missing (kwargs c) ["template_dict"])
           "template_dict" = VDict td ->
  dict_lookup td "expression" = Some expression ->
  _prescriptive_renderer_body substitute_none_for_missing container_str
    (Some c) result language runtime_configuration =
  Ok [ {| content_block_type := "string_template";
          string_template :=
            {| template := "expect table to match the expression "
                           ++ str container_str expression ++ " ";
               params := substitute_none_for_missing (kwargs c) ["template_dict"];
               styling := dict_get (or_empty runtime_configuration) "styling" |}
       |} ].
Proof.
  intros Hp He. unfold _prescriptive_renderer_body. cbn [bind].
  rewrite Hp. cbn [getitem_str]. rewrite He. reflexivity.
Qed.

(** C7, as the code has it.  For a configuration whose expression is
    "col1>0" and which holds no evaluation parameter (no kwargs value that is
    a dict with a ['$PARAMETER'] key), with a helper that leaves the
    configuration's [template_dict] in place and the two decorators as the
    library has them, the decorated renderer returns one content block of
    type "string_template"; its template contains "expect table to match the
    expression col1>0", and it carries the params (the kwargs as the helper
    returned them) and the styling taken from the runtime configuration,
    [None] when there is none. *)
Theorem prescriptive_renderer_col1
    (c : ExpectationConfiguration) (td : pydict)
    (result : option ValidationResult) (language : option string)
    (runtime_configuration : option pydict) :
  decorators_as_in_library renderer render_evaluation_parameter_string ->
  evaluation_parameters (kwargs c) = [] ->
  dict_lookup (kwargs c) "template_dict" = Some (VDict td) ->
  dict_lookup td "expression" = Some (VStr "col1>0") ->
  dict_get (substitute_none_for_missing (kwargs c) ["template_dict"])
           "template_dict" = dict_get (kwargs c) "template_dict" ->
  exists block : RenderedStringTemplateContent,
    _prescriptive_renderer substitute_none_for_missing container_str
      renderer render_evaluation_parameter_string
      (Some c) result language runtime_configuration = Ok [block] /\
    content_block_type block = "string_template" /\
    Substring "expect table to match the expression col1>0"
              (template (string_template block)) /\
    params (string_template block) =
      substitute_none_for_missing (kwargs c) ["template_dict"] /\
    styling (string_template block) =
      dict_get (or_empty runtime_configuration) "styling".
Proof.
  intros D N Htd He Hkeep.
  assert (Hp : dict_get (substitute_none_for_missing (kwargs c) ["template_dict"])
                        "template_dict" = VDict td)
    by (rewrite Hkeep; unfold dict_get; now rewrite Htd).
  rewrite (prescriptive_renderer_returns _ _ _ _ _ D N
             (prescriptive_renderer_template _ _ _ _ _ _ Hp He)).
  eexists; split; [reflexivity|]. repeat split.
  exists EmptyString, " ". reflexivity.
Qed.

End PrescriptiveRenderer.

(** ** The properties on the sample objects *)


Lemma validate_outcome_by_count_witness :
  query_count_result (metrics_of_count "COUNT(*)" (VInt 7)) = Ok (VInt 7) /\
  (7 = 0 ->
   _validate no_container_str unconfigured basic_negative_test_and
             (metrics_of_count "COUNT(*)" (VInt 7)) None (@None unit)
   = Ok {| success := true;
           result := {| info := "The table matches the logical expression";
                        observed_value := "matches logical expression" |} |}) /\
  (0 < 7 ->
   _validate no_container_str unconfigured basic_negative_test_and
             (metrics_of_count "COUNT(*)" (VInt 7)) None (@None unit)
   = Ok {| success := false;
           result := {| info := "The table does not match the logical expression";
                        observed_value := "bad records count: " ++ str_int 7 |} |}).
Proof.
  split; [reflexivity|].
  apply (validate_outcome_by_count no_container_str unit unconfigured
           basic_negative_test_and
           (metrics_of_count "COUNT(*)" (VInt 7)) None None 7).
  reflexivity.
Defined.

(** The info text of a passing and of a failing check starts with "The ". *)
Lemma validate_info_text_has_article :
  (exists r : ValidationResult,
     _validate no_container_str unconfigured basic_positive_test_and
               (metrics_of_count "COUNT(*)" (VInt 0)) None (@None unit) = Ok r /\
     success r = true /\
     info (result r) = "The table matches the logical expression" /\
     info (result r) <> "table matches the logical expression") /\
  (exists r : ValidationResult,
     _validate no_container_str unconfigured basic_negative_test_and
               (metrics_of_count "COUNT(*)" (VInt 7)) None (@None unit) = Ok r /\
     success r = false /\
     info (result r) = "The table does not match the logical expression" /\
     info (result r) <> "table does not match the logical expression").
Proof.
  split; eexists; (split; [reflexivity|]); repeat split; discriminate.
Qed.

Lemma validate_noninterference_witness :
  query_count_result (metrics_of_count "COUNT(*)" (VInt 3)) =
  query_count_result
    (("unrelated.metric", VInt 9) :: metrics_of_count "count_1" (VInt 3)) /\
  _validate no_container_str unconfigured basic_positive_test_and
            (metrics_of_count "COUNT(*)" (VInt 3)) None (Some tt) =
  _validate no_container_str
            {| self_configuration := Some basic_positive_test_and |}
            basic_negative_test_and
            (("unrelated.metric", VInt 9) :: metrics_of_count "count_1" (VInt 3))
            (Some [("styling", VStr "bold")]) (@None unit).
Proof.
  split; [reflexivity|].
  apply (validate_noninterference no_container_str unit); reflexivity.
Defined.

Lemma validate_configuration_rejects_empty_column_list :
  bad_field (VStr "") /\
  exists msg : string,
    validate_configuration super_accepts unconfigured (Some empty_column_list) =
      Raise (InvalidExpectationConfigurationError msg) /\
    (VStr "" = VNone -> msg = "column list must be specified") /\
    (VStr "" <> VNone -> VStr "col1>0" = VNone ->
     msg = "logical expression must be specified") /\
    (VStr "" <> VNone -> VStr "col1>0" <> VNone -> bad_field (VStr "") ->
     msg = "column list must be string") /\
    (~ bad_field (VStr "") -> VStr "col1>0" <> VNone ->
     msg = "logical expression must be a string").
Proof.
  assert (B : bad_field (VStr "")) by (right; right; reflexivity).
  split; [exact B|].
  apply (validate_configuration_rejects_bad_fields super_accepts unconfigured
           (Some empty_column_list) empty_column_list
           [("column_list", VStr ""); ("expression", VStr "col1>0")]
           (VStr "") (VStr "col1>0"));
    try reflexivity.
  left; exact B.
Defined.

(** A column list of the wrong type and an empty column list get the same
    message, which speaks of the type. *)
Lemma validate_configuration_one_message_for_type_and_emptiness :
  validate_configuration super_accepts unconfigured (Some integer_column_list) =
  Raise (InvalidExpectationConfigurationError "column list must be string") /\
  validate_configuration super_accepts unconfigured (Some empty_column_list) =
  Raise (InvalidExpectationConfigurationError "column list must be string").
Proof. split; reflexivity. Qed.

(** C2 asks for an [InvalidExpectationConfigurationError] when [column_list]
    is missing from [template_dict].  On such a configuration, with the base
    class accepting, the subscript ['column_list'] raises [KeyError] ahead of
    the [try] block, and that [KeyError] is what the call raises; the same
    happens for a missing ['expression']. *)
Theorem validate_configuration_key_error :
  bad_field (dict_get [("expression", VStr "col1>0")] "column_list") /\
  validate_configuration super_accepts unconfigured (Some missing_column_list) =
  Raise (KeyError (VStr "column_list")) /\
  validate_configuration super_accepts unconfigured
    (Some (configuration_of (VDict [("column_list", VStr "col1")]))) =
  Raise (KeyError (VStr "expression")).
Proof. split; [left; reflexivity | split; reflexivity]. Qed.

Lemma validate_configuration_without_template_dict_witness :
  template_dict_field (Some no_template_dict) "column_list" = Raise TypeError /\
  validate_configuration super_accepts unconfigured (Some no_template_dict) =
  Raise TypeError /\
  (forall msg : string,
     validate_configuration super_accepts unconfigured (Some no_template_dict) <>
     Raise (InvalidExpectationConfigurationError msg)).
Proof.
  apply (validate_configuration_without_template_dict super_accepts
           unconfigured (Some no_template_dict) no_template_dict);
    [reflexivity | left; reflexivity | reflexivity].
Defined.

Lemma build_query_deterministic_witness :
  substitute query None bindings_in_template_order =
  substitute query None bindings_with_more /\
  substitute query None bindings_in_template_order =
    build_query "col1,col2" "col1>1 and col2>=3" "test_table" /\
  substitute query None bindings_in_template_order =
    Ok (" SELECT COUNT(*)" ++ nl ++
        "                    FROM (SELECT " ++ "col1,col2" ++ nl ++
        "                    FROM " ++ "test_table" ++ " a" ++ nl ++
        "                    WHERE not (" ++ "col1>1 and col2>=3" ++ ")) b" ++ nl ++
        "                ").
Proof.
  apply (build_query_deterministic
           bindings_in_template_order bindings_with_more
           "col1,col2" "col1>1 and col2>=3" "test_table");
    reflexivity.
Defined.

(** The decorators written out meet what is taken of them. *)
Lemma library_decorators :
  decorators_as_in_library library_renderer
    library_render_evaluation_parameter_string.
Proof.
  split.
  - reflexivity.
  - intros f configuration result language rc e H.
    unfold library_render_evaluation_parameter_string. now rewrite H.
  - intros f c result language rc blocks H N.
    unfold library_render_evaluation_parameter_string.
    rewrite H. cbn [bind]. now rewrite N.
  - intros f c result language rc blocks H N R.
    unfold library_render_evaluation_parameter_string.
    rewrite H. cbn [bind].
    destruct (evaluation_parameters (kwargs c)); [contradiction|].
    now rewrite R.
Qed.

Lemma prescriptive_renderer_col1_witness :
  exists block : RenderedStringTemplateContent,
    _prescriptive_renderer none_for_missing no_container_str
      library_renderer library_render_evaluation_parameter_string
      (Some col1_positive) None None None = Ok [block] /\
    content_block_type block = "string_template" /\
    Substring "expect table to match the expression col1>0"
              (template (string_template block)) /\
    params (string_template block) =
      none_for_missing (kwargs col1_positive) ["template_dict"] /\
    styling (string_template block) = dict_get (or_empty None) "styling".
Proof.
  apply (prescriptive_renderer_col1 none_for_missing no_container_str
           library_renderer library_render_evaluation_parameter_string
           col1_positive
           [("column_list", VStr "col1"); ("expression", VStr "col1>0")]
           None None None);
    [exact library_decorators | reflexivity ..].
Defined.

(** On a configuration whose expression is "col1>0" and whose
    [template_dict] also holds an evaluation parameter, the body returns its
    block and the decorated renderer, called without a runtime configuration,
    raises [GreatExpectationsError]. *)
Lemma prescriptive_renderer_evaluation_parameter_not_passed :
  getitem_str (dict_get (kwargs with_evaluation_parameter) "template_dict")
              "expression" = Ok (VStr "col1>0") /\
  (exists block : RenderedStringTemplateContent,
     _prescriptive_renderer_body none_for_missing no_container_str
       (Some with_evaluation_parameter) None None None = Ok [block] /\
     template (string_template block) =
       "expect table to match the expression col1>0 ") /\
  _prescriptive_renderer none_for_missing no_container_str
    library_renderer library_render_evaluation_parameter_string
    (Some with_evaluation_parameter) None None None =
  Raise (OtherError "GreatExpectationsError").
Proof.
  split; [reflexivity|]. split; [eexists; split; reflexivity | reflexivity].
Qed.

(** ** More on [validate_configuration] *)

Section ValidateConfigurationOutcomes.

Variable super_validate_configuration :
  Expectation -> option ExpectationConfiguration -> res unit.

Implicit Types (self : Expectation)
  (configuration : option ExpectationConfiguration)
  (c : ExpectationConfiguration) (td : pydict)
  (column_list expression : pyval).

(** The [try] block either passes or raises the configuration error with one
    of the four messages; no [AssertionError] gets out of it. *)
Lemma field_assertions_outcomes column_list expression :
  let r := try_except_AssertionError
             (field_assertions column_list expression)
             (fun msg => Raise (InvalidExpectationConfigurationError msg)) in
  (r = Ok tt /\
   is_nonempty_str column_list = true /\ is_nonempty_str expression = true) \/
  (exists msg : string,
     r = Raise (InvalidExpectationConfigurationError msg) /\
     In msg assertion_messages /\
     (is_nonempty_str column_list = false \/
      is_nonempty_str expression = false)).
Proof.
  unfold field_assertions, assertion_messages.
  destruct column_list as [| | |[|a s]| |]; destruct expression as [| | |[|a' s']| |];
    cbn;
    first [ left; repeat split; reflexivity
          | right; eexists; split; [reflexivity|]; split; [|auto];
            simpl; tauto ].
Qed.

Lemma is_nonempty_str_true (v : pyval) :
  is_nonempty_str v = true <->
  exists s : string, v = VStr s /\ s <> EmptyString.
Proof.
  split.
  - destruct v as [| | |s| |]; try discriminate.
    destruct s; [discriminate|]. intros _. eexists; split; [reflexivity|discriminate].
  - intros (s & -> & Hs). destruct s; [contradiction | reflexivity].
Qed.

Lemma getitem_str_Ok (x : pyval) (k : string) (v : pyval) :
  getitem_str x k = Ok v <->
  exists d : pydict, x = VDict d /\ dict_lookup d k = Some v.
Proof.
  split.
  - destruct x as [| | | | |d]; try discriminate. simpl.
    destruct (dict_lookup d k) eqn:E; [|discriminate].
    intros [= ->]. now exists d.
  - intros (d & -> & E). simpl. now rewrite E.
Qed.

(** What a returning call tells about the configuration. *)
Lemma validate_configuration_Ok_inv self configuration :
  validate_configuration super_validate_configuration self configuration = Ok tt
  ->
  super_validate_configuration self configuration = Ok tt /\
  exists c td (cl ex : string),
    or_else configuration (self_configuration self) = Some c /\
    dict_lookup (kwargs c) "template_dict" = Some (VDict td) /\
    dict_lookup td "column_list" = Some (VStr cl) /\
    dict_lookup td "expression" = Some (VStr ex) /\
    cl <> EmptyString /\ ex <> EmptyString.
Proof.
  - unfold validate_configuration.
    destruct (super_validate_configuration self configuration) as [[]|e];
      [|discriminate]. cbn [bind]. cbv zeta.
    destruct (or_else configuration (self_configuration self)) as [c|];
      [|discriminate]. unfold template_dict_field.
    destruct (getitem_str (dict_get (kwargs c) "template_dict") "column_list")
      as [column_list|e] eqn:Ecl; [|discriminate].
    destruct (getitem_str (dict_get (kwargs c) "template_dict") "expression")
      as [expression|e] eqn:Eex; [|discriminate].
    cbn [bind]. intros H.
    apply getitem_str_Ok in Ecl. destruct Ecl as (td & Htd & Hcl).
    apply getitem_str_Ok in Eex. destruct Eex as (td' & Htd' & Hex).
    rewrite Htd in Htd'. injection Htd' as <-.
    destruct (field_assertions_outcomes column_list expression)
      as [(_ & N1 & N2)|(msg & R & _)]; [|cbv zeta in R; congruence].
    apply is_nonempty_str_true in N1. destruct N1 as (cl & -> & Ncl).
    apply is_nonempty_str_true in N2. destruct N2 as (ex & -> & Nex).
    split; [reflexivity|]. exists c, td, cl, ex. repeat split; auto.
    unfold dict_get in Htd.
    destruct (dict_lookup (kwargs c) "template_dict"); [now subst|discriminate].
Qed.

(** [validate_configuration] returns exactly when the base class accepts and
    the configuration in force (the one passed, else the instance's) holds a
    dict under ['template_dict'] whose ['column_list'] and ['expression'] are
    both non-empty strings. *)
Theorem validate_configuration_accepts_iff self configuration :
  validate_configuration super_validate_configuration self configuration = Ok tt
  <->
  super_validate_configuration self configuration = Ok tt /\
  exists c td (cl ex : string),
    or_else configuration (self_configuration self) = Some c /\
    dict_lookup (kwargs c) "template_dict" = Some (VDict td) /\
    dict_lookup td "column_list" = Some (VStr cl) /\
    dict_lookup td "expression" = Some (VStr ex) /\
    cl <> EmptyString /\ ex <> EmptyString.
Proof.
  split; [apply validate_configuration_Ok_inv|].
  - intros (Hsuper & c & td & cl & ex & Hc & Htd & Hcl & Hex & Ncl & Nex).
    apply (validate_configuration_accepts super_validate_configuration
             self configuration c td (VStr cl) (VStr ex)); auto;
      apply is_nonempty_str_true; eexists; split; eauto.
Qed.

(** A field that [template_dict] lacks escapes as a [KeyError] naming it:
    ['column_list'] when that is missing, ['expression'] when only that one
    is. *)
Theorem validate_configuration_missing_field self configuration c td :
  or_else configuration (self_configuration self) = Some c ->
  dict_lookup (kwargs c) "template_dict" = Some (VDict td) ->
  super_validate_configuration self configuration = Ok tt ->
  (dict_lookup td "column_list" = None ->
   validate_configuration super_validate_configuration self configuration =
   Raise (KeyError (VStr "column_list"))) /\
  (dict_lookup td "column_list" <> None ->
   dict_lookup td "expression" = None ->
   validate_configuration super_validate_configuration self configuration =
   Raise (KeyError (VStr "expression"))).
Proof.
  intros Hc Htd Hsuper. split.
  - intros Hcl.
    now apply (validate_configuration_missing_column_list
                 super_validate_configuration self configuration c td).
  - intros Hcl Hex.
    unfold validate_configuration, template_dict_field, dict_get.
    rewrite Hsuper, Hc. simpl. rewrite Htd. simpl.
    destruct (dict_lookup td "column_list"); [|contradiction].
    simpl. now rewrite Hex.
Qed.

(** A ['template_dict'] that is not a dict (a string, a list, a number, a
    boolean, [None], or no entry at all) makes the call raise [TypeError]. *)
Theorem validate_configuration_template_dict_not_a_dict self configuration c :
  or_else configuration (self_configuration self) = Some c ->
  (forall td : pydict, dict_get (kwargs c) "template_dict" <> VDict td) ->
  super_validate_configuration self configuration = Ok tt ->
  validate_configuration super_validate_configuration self configuration =
  Raise TypeError.
Proof.
  intros Hc Htd Hsuper.
  unfold validate_configuration, template_dict_field.
  rewrite Hsuper, Hc. simpl.
  destruct (dict_get (kwargs c) "template_dict") as [| | | | |td];
    try reflexivity.
  now elim (Htd td).
Qed.

(** When the base class accepts, the call has these outcomes and no other: it
    returns, or raises [TypeError], or a [KeyError] naming one of the two
    fields, or the configuration error with one of the four assertion
    messages.  An [AssertionError] never gets out. *)
Theorem validate_configuration_outcomes self configuration :
  super_validate_configuration self configuration = Ok tt ->
  let r := validate_configuration super_validate_configuration
             self configuration in
  (r = Ok tt \/
   r = Raise TypeError \/
   r = Raise (KeyError (VStr "column_list")) \/
   r = Raise (KeyError (VStr "expression")) \/
   exists msg : string,
     r = Raise (InvalidExpectationConfigurationError msg) /\
     In msg assertion_messages) /\
  forall msg : string, r <> Raise (AssertionError msg).
Proof.
  intros Hsuper r.
  assert (H : r = Ok tt \/
              r = Raise TypeError \/
              r = Raise (KeyError (VStr "column_list")) \/
              r = Raise (KeyError (VStr "expression")) \/
              exists msg : string,
                r = Raise (InvalidExpectationConfigurationError msg) /\
                In msg assertion_messages).
  { subst r. unfold validate_configuration. rewrite Hsuper. cbn [bind]. cbv zeta.
    destruct (or_else configuration (self_configuration self)) as [c|];
      [|right; left; reflexivity].
    unfold template_dict_field.
    destruct (dict_get (kwargs c) "template_dict") as [| | | | |td];
      try (right; left; reflexivity).
    simpl getitem_str.
    destruct (dict_lookup td "column_list") as [column_list|];
      [|right; right; left; reflexivity].
    destruct (dict_lookup td "expression") as [expression|];
      [|right; right; right; left; reflexivity].
    cbn [bind].
    destruct (field_assertions_outcomes column_list expression)
      as [(R & _)|(msg & R & M & _)]; cbv zeta in R; rewrite R.
    - left; reflexivity.
    - do 4 right. exists msg. split; [reflexivity | exact M]. }
  split; [exact H|].
  intros msg E. rewrite E in H.
  destruct H as [H|[H|[H|[H|(m & H & _)]]]]; discriminate.
Qed.

(** The bundled examples are configurations the check accepts, whenever the
    base class accepts them. *)
Theorem examples_pass_validate_configuration self :
  (forall t : ExampleTest, In t example_tests ->
     super_validate_configuration self (Some (configuration_of_test t)) = Ok tt) ->
  Forall
    (fun t : ExampleTest =>
       validate_configuration super_validate_configuration self
         (Some (configuration_of_test t)) = Ok tt)
    example_tests.
Proof.
  intros Hsuper. apply Forall_forall. intros t Ht.
  unfold validate_configuration. rewrite (Hsuper t Ht).
  simpl in Ht. destruct Ht as [<-|[<-|[<-|[<-|[]]]]]; reflexivity.
Qed.

End ValidateConfigurationOutcomes.

(** ** More on [_validate] *)

Section ValidateOutcomes.

Variable container_str : pyval -> string.
Variable ExecutionEngine : Type.

Implicit Types (self : Expectation) (configuration : ExpectationConfiguration)
  (metrics : pydict) (runtime_configuration : option pydict)
  (execution_engine : option ExecutionEngine).

Lemma str_int_inj (n m : Z) : str_int n = str_int m -> n = m.
Proof.
  intros H. assert (E : int_of_str (str_int n) = int_of_str (str_int m))
    by now rewrite H.
  rewrite !int_of_str_str_int in E. now injection E.
Qed.

(** Among the values modelled, the check passes on the integer 0 and on
    [False], which Python holds equal to 0, and on nothing else: not on
    [None], on [True], on a text such as "0", on a list or on a dict. *)
Theorem validate_success_values self configuration metrics
    runtime_configuration execution_engine (v : pyval) :
  query_count_result metrics = Ok v ->
  exists r : ValidationResult,
    _validate container_str self configuration metrics runtime_configuration
              execution_engine = Ok r /\
    (success r = true <-> v = VInt 0 \/ v = VBool false).
Proof.
  intros H. rewrite (_validate_of_count _ _ _ _ _ _ _ _ H).
  eexists; split; [reflexivity|].
  destruct v as [|[]|z|s|l|d]; cbn [eq_zero negb success];
    try (split; [discriminate | intros [E|E]; discriminate]).
  - split; [now right | reflexivity].
  - destruct (Z.eqb_spec z 0) as [->|Hz]; cbn [success].
    + split; [now left | reflexivity].
    + split; [discriminate | intros [[= E]|E]; [contradiction | discriminate]].
Qed.

(** A count below 0 is reported like any other violation count: the check
    fails and the observed value carries the minus sign and the digits of the
    count's size. *)
Theorem validate_negative_count self configuration metrics
    runtime_configuration execution_engine (n : Z) :
  n < 0 ->
  query_count_result metrics = Ok (VInt n) ->
  exists digits : string,
    int_of_str digits = Some (- n) /\
    _validate container_str self configuration metrics runtime_configuration
              execution_engine
    = Ok {| success := false;
            result := {| info := "The table does not match the logical expression";
                         observed_value := "bad records count: -" ++ digits |} |}.
Proof.
  intros Hn H. rewrite (_validate_of_count _ _ _ _ _ _ _ _ H).
  destruct n as [|p|p]; try lia.
  exists (str_int (Z.pos p)). split; [apply int_of_str_str_int|].
  reflexivity.
Qed.

(** For counts other than 0 the outcome tells the count: two calls that
    return the same outcome read the same count. *)
Theorem validate_outcome_tells_count
    self1 self2 configuration1 configuration2 metrics1 metrics2
    runtime_configuration1 runtime_configuration2
    execution_engine1 execution_engine2 (n m : Z) :
  n <> 0 -> m <> 0 ->
  query_count_result metrics1 = Ok (VInt n) ->
  query_count_result metrics2 = Ok (VInt m) ->
  _validate container_str self1 configuration1 metrics1
            runtime_configuration1 execution_engine1 =
  _validate container_str self2 configuration2 metrics2
            runtime_configuration2 execution_engine2 ->
  n = m.
Proof.
  intros Hn Hm H1 H2.
  rewrite (_validate_of_count _ _ _ _ _ _ _ _ H1),
          (_validate_of_count _ _ _ _ _ _ _ _ H2).
  cbn [eq_zero str].
  destruct (Z.eqb_spec n 0) as [|_]; [contradiction|].
  destruct (Z.eqb_spec m 0) as [|_]; [contradiction|].
  intros [= E]. now apply str_int_inj.
Qed.

(** Only the first value of the first row is read: further columns, further
    rows and other metrics change nothing. *)
Theorem validate_reads_first_value self configuration metrics
    runtime_configuration execution_engine
    (column : string) (v : pyval) (columns : pydict) (rows : list pyval) :
  dict_get metrics "query.template_values" =
    VList (VDict ((column, v) :: columns) :: rows) ->
  query_count_result metrics = Ok v /\
  _validate container_str self configuration metrics runtime_configuration
            execution_engine =
  _validate container_str self configuration (metrics_of_count column v)
            runtime_configuration execution_engine.
Proof.
  intros H.
  assert (Q : query_count_result metrics = Ok v)
    by (unfold query_count_result; rewrite H; reflexivity).
  split; [exact Q|].
  unfold _validate. now rewrite Q, query_count_result_of_count.
Qed.

(** Without the metric, or with [None] under its name, the call raises
    [TypeError]. *)
Theorem validate_without_metric self configuration metrics
    runtime_configuration execution_engine :
  dict_lookup metrics "query.template_values" = None \/
  dict_lookup metrics "query.template_values" = Some VNone ->
  _validate container_str self configuration metrics runtime_configuration
            execution_engine = Raise TypeError.
Proof.
  intros H. apply _validate_raises.
  unfold query_count_result, dict_get. destruct H as [-> | ->]; reflexivity.
Qed.

(** A query result with no row, or whose first row has no column, makes the
    call raise [IndexError]. *)
Theorem validate_empty_result self configuration metrics
    runtime_configuration execution_engine :
  dict_get metrics "query.template_values" = VList [] \/
  (exists rows : list pyval,
     dict_get metrics "query.template_values" = VList (VDict [] :: rows)) ->
  _validate container_str self configuration metrics runtime_configuration
            execution_engine = Raise IndexError.
Proof.
  intros H. apply _validate_raises. unfold query_count_result.
  destruct H as [-> | (rows & ->)]; reflexivity.
Qed.

(** Whatever the call raises comes from reading the count: [TypeError],
    [IndexError], [AttributeError] or [KeyError(0)].  Once a value is read
    the call returns. *)
Theorem validate_failures self configuration metrics
    runtime_configuration execution_engine (e : exn) :
  _validate container_str self configuration metrics runtime_configuration
            execution_engine = Raise e ->
  query_count_result metrics = Raise e /\ In e read_failures.
Proof.
  unfold _validate.
  destruct (query_count_result metrics) as [v|e'] eqn:Q; cbn [bind].
  - destruct (eq_zero v); discriminate.
  - intros [= ->]. split; [reflexivity|].
    unfold query_count_result in Q. unfold read_failures.
    destruct (dict_get metrics "query.template_values")
      as [| | |[|a s]|[|row rows]|d]; simpl in Q;
      try (injection Q as <-; simpl; tauto).
    destruct row as [| | | | |[|[k v] cols]]; simpl in Q;
      try (injection Q as <-; simpl; tauto).
    discriminate.
Qed.

End ValidateOutcomes.

(** ** More on [_prescriptive_renderer] *)

Section PrescriptiveRendererOutcomes.

Variable super_validate_configuration :
  Expectation -> option ExpectationConfiguration -> res unit.
Variable substitute_none_for_missing : pydict -> list string -> pydict.
Variable container_str : pyval -> string.
Variable renderer : string -> renderer_fn -> renderer_fn.
Variable render_evaluation_parameter_string : renderer_fn -> renderer_fn.

Implicit Types (c : ExpectationConfiguration) (td : pydict)
  (result : option ValidationResult) (language : option string)
  (runtime_configuration : option pydict).

(** The renderer does not check the expression: on a configuration without
    evaluation parameter, and with the decorators as the library has them,
    whatever value sits under ['expression'] is printed with [str] between
    the fixed words and one closing blank, so [None] is rendered as the word
    None and a number as its digits. *)
Theorem prescriptive_renderer_any_expression c td (expression : pyval)
    result language runtime_configuration :
  decorators_as_in_library renderer render_evaluation_parameter_string ->
  evaluation_parameters (kwargs c) = [] ->
  dict_get (substitute_none_for_missing (kwargs c) ["template_dict"])
           "template_dict" = VDict td ->
  dict_lookup td "expression" = Some expression ->
  exists block : RenderedStringTemplateContent,
    _prescriptive_renderer substitute_none_for_missing container_str
      renderer render_evaluation_parameter_string
      (Some c) result language runtime_configuration = Ok [block] /\
    template (string_template block) =
      "expect table to match the expression "
      ++ str container_str expression ++ " " /\
    (expression = VNone ->
     template (string_template block) =
       "expect table to match the expression None ") /\
    (forall n : Z, expression = VInt n ->
     template (string_template block) =
       "expect table to match the expression " ++ str_int n ++ " ").
Proof.
  intros D N Hp He.
  rewrite (prescriptive_renderer_returns _ _ _ _ _ _ _ _ _ D N
             (prescriptive_renderer_template _ _ _ _ _ _ _ _ Hp He)).
  eexists; split; [reflexivity|]. cbn [template string_template].
  split; [reflexivity|]. split.
  - intros ->. reflexivity.
  - intros n ->. reflexivity.
Qed.

(** When the helper's result holds no dict under ['template_dict'] (the
    [None] it puts in for a missing entry, say) the subscript raises
    [TypeError]: in the body, and so in the decorated renderer, whose
    decorators run the body first. *)
Theorem prescriptive_renderer_without_template_dict c
    result language runtime_configuration :
  (forall td : pydict,
     dict_get (substitute_none_for_missing (kwargs c) ["template_dict"])
              "template_dict" <> VDict td) ->
  _prescriptive_renderer_body substitute_none_for_missing container_str
    (Some c) result language runtime_configuration = Raise TypeError /\
  (decorators_as_in_library renderer render_evaluation_parameter_string ->
   _prescriptive_renderer substitute_none_for_missing container_str
     renderer render_evaluation_parameter_string
     (Some c) result language runtime_configuration = Raise TypeError).
Proof.
  intros H.
  assert (B : _prescriptive_renderer_body substitute_none_for_missing
                container_str (Some c) result language runtime_configuration
              = Raise TypeError).
  { unfold _prescriptive_renderer_body. cbn [bind].
    destruct (dict_get (substitute_none_for_missing (kwargs c) ["template_dict"])
                       "template_dict") as [| | | | |td];
      try reflexivity.
    now elim (H td). }
  split; [exact B|].
  intros D. now apply prescriptive_renderer_raises.
Qed.

(** A [template_dict] without ['expression'] makes the renderer raise
    [KeyError]: in the body, and so in the decorated renderer. *)
Theorem prescriptive_renderer_without_expression c td
    result language runtime_configuration :
  dict_get (substitute_none_for_missing (kwargs c) ["template_dict"])
           "template_dict" = VDict td ->
  dict_lookup td "expression" = None ->
  _prescriptive_renderer_body substitute_none_for_missing container_str
    (Some c) result language runtime_configuration =
  Raise (KeyError (VStr "expression")) /\
  (decorators_as_in_library renderer render_evaluation_parameter_string ->
   _prescriptive_renderer substitute_none_for_missing container_str
     renderer render_evaluation_parameter_string
     (Some c) result language runtime_configuration =
   Raise (KeyError (VStr "expression"))).
Proof.
  intros Hp He.
  assert (B : _prescriptive_renderer_body substitute_none_for_missing
                container_str (Some c) result language runtime_configuration
              = Raise (KeyError (VStr "expression"))).
  { unfold _prescriptive_renderer_body. cbn [bind].
    rewrite Hp. cbn [getitem_str]. now rewrite He. }
  split; [exact B|].
  intros D. now apply prescriptive_renderer_raises.
Qed.

(** The outcomes of the renderer's body, for every input: [AttributeError]
    exactly when
    there is no configuration, else [TypeError], or [KeyError] for the
    expression, or a list of one block of type "string_template" whose
    styling is the runtime configuration's ['styling'] entry, [None] without
    one. *)
Theorem prescriptive_renderer_outcomes
    (configuration : option ExpectationConfiguration)
    result language runtime_configuration :
  let r := _prescriptive_renderer_body substitute_none_for_missing container_str
             configuration result language runtime_configuration in
  (r = Raise AttributeError <-> configuration = None) /\
  (r = Raise AttributeError \/
   r = Raise TypeError \/
   r = Raise (KeyError (VStr "expression")) \/
   exists block : RenderedStringTemplateContent,
     r = Ok [block] /\
     content_block_type block = "string_template" /\
     styling (string_template block) =
       match runtime_configuration with
       | Some d => dict_get d "styling"
       | None => VNone
       end).
Proof.
  intros r. subst r. unfold _prescriptive_renderer_body.
  destruct configuration as [c|]; cbn [bind];
    [|split; [tauto | left; reflexivity]].
  destruct (dict_get (substitute_none_for_missing (kwargs c) ["template_dict"])
                     "template_dict") as [| | | | |td]; cbn [getitem_str bind];
    try (split; [split; discriminate | right; left; reflexivity]).
  destruct (dict_lookup td "expression") as [expression|]; cbn [bind].
  - split; [split; discriminate|]. do 3 right.
    eexists; split; [reflexivity|]. split; [reflexivity|].
    cbn [styling string_template].
    destruct runtime_configuration as [[|e d]|]; reflexivity.
  - split; [split; discriminate | right; right; left; reflexivity].
Qed.

(** What an accepted configuration gives the body of the renderer. *)
Lemma validated_configuration_body (self : Expectation) c
    result language runtime_configuration :
  validate_configuration super_validate_configuration self (Some c) = Ok tt ->
  dict_get (substitute_none_for_missing (kwargs c) ["template_dict"])
           "template_dict" = dict_get (kwargs c) "template_dict" ->
  exists (ex : string) (block : RenderedStringTemplateContent),
    ex <> EmptyString /\
    getitem_str (dict_get (kwargs c) "template_dict") "expression" =
      Ok (VStr ex) /\
    _prescriptive_renderer_body substitute_none_for_missing container_str
      (Some c) result language runtime_configuration = Ok [block] /\
    template (string_template block) =
      "expect table to match the expression " ++ ex ++ " ".
Proof.
  intros Hv Hkeep.
  apply validate_configuration_Ok_inv in Hv.
  destruct Hv as (_ & c' & td & cl & ex & Hc & Htd & _ & Hex & _ & Nex).
  simpl in Hc. injection Hc as <-.
  assert (G : dict_get (kwargs c) "template_dict" = VDict td)
    by (unfold dict_get; now rewrite Htd).
  exists ex. eexists. split; [exact Nex|]. split.
  - rewrite G. simpl. now rewrite Hex.
  - rewrite G in Hkeep.
    rewrite (prescriptive_renderer_template _ _ _ _ _ _ _ _ Hkeep Hex).
    split; reflexivity.
Qed.

(** A configuration that [validate_configuration] accepts and that holds no
    evaluation parameter renders: with a helper that leaves its
    [template_dict] in place and the decorators as the library has them, the
    decorated renderer returns one block whose template is the fixed words,
    the configuration's expression, a non-empty string, unchanged, and one
    blank. *)
Theorem validated_configuration_renders (self : Expectation) c
    result language runtime_configuration :
  decorators_as_in_library renderer render_evaluation_parameter_string ->
  evaluation_parameters (kwargs c) = [] ->
  validate_configuration super_validate_configuration self (Some c) = Ok tt ->
  dict_get (substitute_none_for_missing (kwargs c) ["template_dict"])
           "template_dict" = dict_get (kwargs c) "template_dict" ->
  exists (ex : string) (block : RenderedStringTemplateContent),
    ex <> EmptyString /\
    getitem_str (dict_get (kwargs c) "template_dict") "expression" =
      Ok (VStr ex) /\
    _prescriptive_renderer substitute_none_for_missing container_str
      renderer render_evaluation_parameter_string
      (Some c) result language runtime_configuration = Ok [block] /\
    template (string_template block) =
      "expect table to match the expression " ++ ex ++ " ".
Proof.
  intros D N Hv Hkeep.
  destruct (validated_configuration_body self c result language
              runtime_configuration Hv Hkeep)
    as (ex & block & Nex & Hex & Hb & Ht).
  exists ex, block. repeat split; auto.
  now apply prescriptive_renderer_returns.
Qed.

(** Acceptance by [validate_configuration] does not make a configuration
    renderable: one that holds an evaluation parameter is accepted all the
    same, and the decorated renderer, called without a runtime configuration
    or with an empty one, raises [GreatExpectationsError]. *)
Theorem validated_configuration_with_evaluation_parameter
    (self : Expectation) c result language runtime_configuration :
  decorators_as_in_library renderer render_evaluation_parameter_string ->
  evaluation_parameters (kwargs c) <> [] ->
  or_empty runtime_configuration = [] ->
  validate_configuration super_validate_configuration self (Some c) = Ok tt ->
  dict_get (substitute_none_for_missing (kwargs c) ["template_dict"])
           "template_dict" = dict_get (kwargs c) "template_dict" ->
  _prescriptive_renderer substitute_none_for_missing container_str
    renderer render_evaluation_parameter_string
    (Some c) result language runtime_configuration =
  Raise (OtherError "GreatExpectationsError").
Proof.
  intros D N R Hv Hkeep.
  destruct (validated_configuration_body self c result language
              runtime_configuration Hv Hkeep)
    as (ex & block & _ & _ & Hb & _).
  now apply (prescriptive_renderer_not_passed_in _ _ _ _ _ _ _ _ [block]).
Qed.

End PrescriptiveRendererOutcomes.

(** ** The further properties on sample objects *)

Lemma validate_configuration_missing_field_witness :
  (dict_lookup [("expression", VStr "col1>0")] "column_list" = None ->
   validate_configuration super_accepts unconfigured (Some missing_column_list) =
   Raise (KeyError (VStr "column_list"))) /\
  (dict_lookup [("expression", VStr "col1>0")] "column_list" <> None ->
   dict_lookup [("expression", VStr "col1>0")] "expression" = None ->
   validate_configuration super_accepts unconfigured (Some missing_column_list) =
   Raise (KeyError (VStr "expression"))).
Proof.
  apply (validate_configuration_missing_field super_accepts unconfigured
           (Some missing_column_list) missing_column_list
           [("expression", VStr "col1>0")]);
    reflexivity.
Defined.

Lemma validate_configuration_template_dict_not_a_dict_witness :
  validate_configuration super_accepts unconfigured
    (Some (configuration_of (VStr "col1>0"))) = Raise TypeError.
Proof.
  apply (validate_configuration_template_dict_not_a_dict super_accepts
           unconfigured (Some (configuration_of (VStr "col1>0")))
           (configuration_of (VStr "col1>0")));
    [reflexivity | intros td; discriminate | reflexivity].
Defined.

Lemma validate_configuration_outcomes_witness :
  (validate_configuration super_accepts unconfigured (Some integer_column_list)
   = Ok tt \/
   validate_configuration super_accepts unconfigured (Some integer_column_list)
   = Raise TypeError \/
   validate_configuration super_accepts unconfigured (Some integer_column_list)
   = Raise (KeyError (VStr "column_list")) \/
   validate_configuration super_accepts unconfigured (Some integer_column_list)
   = Raise (KeyError (VStr "expression")) \/
   exists msg : string,
     validate_configuration super_accepts unconfigured
       (Some integer_column_list)
     = Raise (InvalidExpectationConfigurationError msg) /\
     In msg assertion_messages) /\
  forall msg : string,
    validate_configuration super_accepts unconfigured (Some integer_column_list)
    <> Raise (AssertionError msg).
Proof.
  apply (validate_configuration_outcomes super_accepts unconfigured
           (Some integer_column_list)).
  reflexivity.
Defined.

Lemma examples_pass_validate_configuration_witness :
  Forall
    (fun t : ExampleTest =>
       validate_configuration super_accepts unconfigured
         (Some (configuration_of_test t)) = Ok tt)
    example_tests.
Proof.
  apply (examples_pass_validate_configuration super_accepts unconfigured).
  intros t _. reflexivity.
Defined.

Lemma validate_success_values_witness :
  exists r : ValidationResult,
    _validate no_container_str unconfigured basic_positive_test_and
              (metrics_of_count "COUNT(*)" (VBool false)) None (@None unit)
    = Ok r /\
    (success r = true <-> VBool false = VInt 0 \/ VBool false = VBool false).
Proof.
  apply (validate_success_values no_container_str unit unconfigured
           basic_positive_test_and
           (metrics_of_count "COUNT(*)" (VBool false)) None None (VBool false)).
  reflexivity.
Defined.

Lemma validate_negative_count_witness :
  exists digits : string,
    int_of_str digits = Some (- -3) /\
    _validate no_container_str unconfigured basic_negative_test_and
              (metrics_of_count "COUNT(*)" (VInt (-3))) None (@None unit)
    = Ok {| success := false;
            result := {| info := "The table does not match the logical expression";
                         observed_value := "bad records count: -" ++ digits |} |}.
Proof.
  apply (validate_negative_count no_container_str unit unconfigured
           basic_negative_test_and
           (metrics_of_count "COUNT(*)" (VInt (-3))) None None (-3));
    [lia | reflexivity].
Defined.

Lemma validate_outcome_tells_count_witness :
  _validate no_container_str unconfigured basic_negative_test_and
            (metrics_of_count "COUNT(*)" (VInt 7)) None (@None unit) =
  _validate no_container_str unconfigured basic_positive_test_and
            (metrics_of_count "count_1" (VInt 7)) None (@None unit) /\
  7 = 7.
Proof.
  split; [reflexivity|].
  apply (validate_outcome_tells_count no_container_str unit
           unconfigured unconfigured
           basic_negative_test_and basic_positive_test_and
           (metrics_of_count "COUNT(*)" (VInt 7))
           (metrics_of_count "count_1" (VInt 7))
           None None None None 7 7);
    try reflexivity; lia.
Defined.

Lemma validate_reads_first_value_witness :
  query_count_result metrics_two_rows = Ok (VInt 2) /\
  _validate no_container_str unconfigured basic_negative_test_and
            metrics_two_rows None (@None unit) =
  _validate no_container_str unconfigured basic_negative_test_and
            (metrics_of_count "COUNT(*)" (VInt 2)) None (@None unit).
Proof.
  apply (validate_reads_first_value no_container_str unit unconfigured
           basic_negative_test_and metrics_two_rows None None
           "COUNT(*)" (VInt 2) [("other", VInt 0)]
           [VDict [("COUNT(*)", VInt 0)]]).
  reflexivity.
Defined.

Lemma validate_without_metric_witness :
  _validate no_container_str unconfigured basic_positive_test_and
            [("table.row_count", VInt 6)] None (@None unit) = Raise TypeError.
Proof.
  apply (validate_without_metric no_container_str unit unconfigured
           basic_positive_test_and [("table.row_count", VInt 6)] None None).
  left; reflexivity.
Defined.

Lemma validate_empty_result_witness :
  _validate no_container_str unconfigured basic_positive_test_and
            [("query.template_values", VList [])] None (@None unit) =
  Raise IndexError.
Proof.
  apply (validate_empty_result no_container_str unit unconfigured
           basic_positive_test_and
           [("query.template_values", VList [])] None None).
  left; reflexivity.
Defined.

Lemma validate_failures_witness :
  query_count_result [("query.template_values", VList [VInt 3])] =
    Raise AttributeError /\
  In AttributeError read_failures.
Proof.
  apply (validate_failures no_container_str unit unconfigured
           basic_positive_test_and
           [("query.template_values", VList [VInt 3])] None None
           AttributeError).
  reflexivity.
Defined.

Lemma prescriptive_renderer_any_expression_witness :
  exists block : RenderedStringTemplateContent,
    _prescriptive_renderer none_for_missing no_container_str
      library_renderer library_render_evaluation_parameter_string
      (Some (configuration_of (template_dict_of (VStr "col1") VNone)))
      None None None = Ok [block] /\
    template (string_template block) =
      "expect table to match the expression "
      ++ str no_container_str VNone ++ " " /\
    (VNone = VNone ->
     template (string_template block) =
       "expect table to match the expression None ") /\
    (forall n : Z, VNone = VInt n ->
     template (string_template block) =
       "expect table to match the expression " ++ str_int n ++ " ").
Proof.
  apply (prescriptive_renderer_any_expression none_for_missing
           no_container_str
           library_renderer library_render_evaluation_parameter_string
           (configuration_of (template_dict_of (VStr "col1") VNone))
           [("column_list", VStr "col1"); ("expression", VNone)]
           VNone None None None);
    [exact library_decorators | reflexivity ..].
Defined.

Lemma prescriptive_renderer_without_template_dict_witness :
  _prescriptive_renderer_body none_for_missing no_container_str
    (Some no_template_dict) None None None = Raise TypeError /\
  _prescriptive_renderer none_for_missing no_container_str
    library_renderer library_render_evaluation_parameter_string
    (Some no_template_dict) None None None = Raise TypeError.
Proof.
  destruct (prescriptive_renderer_without_template_dict none_for_missing
              no_container_str
              library_renderer library_render_evaluation_parameter_string
              no_template_dict None None None) as [B D].
  - intros td; discriminate.
  - split; [exact B | exact (D library_decorators)].
Defined.

Lemma prescriptive_renderer_without_expression_witness :
  _prescriptive_renderer_body none_for_missing no_container_str
    (Some (configuration_of (VDict [("column_list", VStr "col1")])))
    None None None = Raise (KeyError (VStr "expression")) /\
  _prescriptive_renderer none_for_missing no_container_str
    library_renderer library_render_evaluation_parameter_string
    (Some (configuration_of (VDict [("column_list", VStr "col1")])))
    None None None = Raise (KeyError (VStr "expression")).
Proof.
  destruct (prescriptive_renderer_without_expression none_for_missing
              no_container_str
              library_renderer library_render_evaluation_parameter_string
              (configuration_of (VDict [("column_list", VStr "col1")]))
              [("column_list", VStr "col1")] None None None) as [B D].
  - reflexivity.
  - reflexivity.
  - split; [exact B | exact (D library_decorators)].
Defined.

Lemma validated_configuration_renders_witness :
  exists (ex : string) (block : RenderedStringTemplateContent),
    ex <> EmptyString /\
    getitem_str (dict_get (kwargs basic_positive_test_and) "template_dict")
                "expression" = Ok (VStr ex) /\
    _prescriptive_renderer none_for_missing no_container_str
      library_renderer library_render_evaluation_parameter_string
      (Some basic_positive_test_and) None None None = Ok [block] /\
    template (string_template block) =
      "expect table to match the expression " ++ ex ++ " ".
Proof.
  apply (validated_configuration_renders super_accepts none_for_missing
           no_container_str
           library_renderer library_render_evaluation_parameter_string
           unconfigured basic_positive_test_and None None None);
    [exact library_decorators | reflexivity ..].
Defined.

Lemma validated_configuration_with_evaluation_parameter_witness :
  validate_configuration super_accepts unconfigured
    (Some with_evaluation_parameter) = Ok tt /\
  _prescriptive_renderer none_for_missing no_container_str
    library_renderer library_render_evaluation_parameter_string
    (Some with_evaluation_parameter) None None (Some []) =
  Raise (OtherError "GreatExpectationsError").
Proof.
  split; [reflexivity|].
  apply (validated_configuration_with_evaluation_parameter super_accepts
           none_for_missing no_container_str
           library_renderer library_render_evaluation_parameter_string
           unconfigured with_evaluation_parameter None None (Some []));
    [exact library_decorators | discriminate | reflexivity ..].
Defined.
